(** * Research assistant workflow: report-level graph nodes

    A shallow embedding of the node functions of
    [app/backend/research_graph.py], the routing function of
    [app/backend/analyst_subgraph.py] and the state schema of
    [app/backend/research_schema.py], with the theorems that settle the
    specification's statements about them.

    Python [str] values are embedded as [string] (sequences of bytes, the
    UTF-8 encoding of the text).  Every character the code searches for or
    strips is ASCII, and an ASCII byte never occurs inside the encoding of
    another code point, so prefix tests, [strip], [in] and [split] agree
    with their code-point versions. *)

From Stdlib Require Import String Ascii List ZArith Bool Lia.
From stdpp Require Import base option list gmap strings.

Local Open Scope string_scope.

(** ** Python string operations *)

Module PyStr.

(** The line feed, written [\n] in the source. *)
Definition nl : string := String "010"%char "".

(** [c in chars], for a character [c]. *)
Fixpoint mem (c : ascii) (chars : string) : bool :=
  match chars with
  | "" => false
  | String d chars' => Ascii.eqb c d || mem c chars'
  end.

(** [s.startswith(p)]. *)
Fixpoint startswith (p s : string) : bool :=
  match p, s with
  | "", _ => true
  | String a p', String b s' => Ascii.eqb a b && startswith p' s'
  | String _ _, "" => false
  end.

(** [s.lstrip(chars)]: drop the longest prefix made of characters of
    [chars]. *)
Fixpoint lstrip (chars s : string) : string :=
  match s with
  | "" => ""
  | String c s' => if mem c chars then lstrip chars s' else s
  end.

(** [s.rstrip(chars)]: drop the longest suffix made of characters of
    [chars]. *)
Fixpoint rstrip (chars s : string) : string :=
  match s with
  | "" => ""
  | String c s' =>
      match rstrip chars s' with
      | "" => if mem c chars then "" else String c ""
      | r => String c r
      end
  end.

(** [s.strip(chars)]: [chars] is a set of characters, removed from both
    ends. *)
Definition strip (chars s : string) : string :=
  rstrip chars (lstrip chars s).

(** [s\[n:\]]. *)
Fixpoint drop (n : nat) (s : string) : string :=
  match n, s with
  | O, _ => s
  | S n', String _ s' => drop n' s'
  | S _, "" => ""
  end.

(** [sub in s]. *)
Fixpoint contains (sub s : string) : bool :=
  startswith sub s ||
  match s with
  | "" => false
  | String _ s' => contains sub s'
  end.

(** [s.partition(sep)] when [sep] occurs in [s]: the text before the
    leftmost occurrence and the text after it. *)
Fixpoint find (sep s : string) : option (string * string) :=
  if startswith sep s then Some ("", drop (String.length sep) s)
  else
    match s with
    | "" => None
    | String c s' =>
        match find sep s' with
        | Some (a, b) => Some (String c a, b)
        | None => None
        end
    end.

(** [s.split(sep)] for a non-empty [sep] (an empty one raises
    [ValueError]; the source passes a literal): cut at the leftmost
    occurrence and go on in the text after it.  Each cut consumes at
    least one character, so [String.length s] rounds are enough, see
    [split_fuel_enough]. *)
Fixpoint split_fuel (fuel : nat) (sep s : string) : list string :=
  match fuel with
  | O => [s]
  | S fuel' =>
      match find sep s with
      | None => [s]
      | Some (a, b) => a :: split_fuel fuel' sep b
      end
  end.

Definition split (sep s : string) : list string :=
  split_fuel (String.length s) sep s.

(** [sep.join(l)]. *)
Fixpoint join (sep : string) (l : list string) : string :=
  match l with
  | [] => ""
  | [s] => s
  | s :: l' => s +:+ sep +:+ join sep l'
  end.

End PyStr.


(** ** Values, exceptions and the workflow state *)

(** Modelled from the spec: the [Analyst] schema class of
    [analyst_schema.py], a persona with the four fields the example flow of
    [research_graph.py] prints. *)
Record Analyst := mkAnalyst {
  name : string;
  affiliation : string;
  role : string;
  description : string
}.

(** Chat messages: the prompts the nodes build and the reply of the model.
    Every kind has a [content] attribute. *)
Inductive message :=
  | SystemMessage (content : string)
  | HumanMessage (content : string)
  | AIMessage (content : string).

Definition content_of (m : message) : string :=
  match m with
  | SystemMessage c | HumanMessage c | AIMessage c => c
  end.

(** The Python objects a state key can hold. *)
#[warnings="-register-all"] Inductive value :=
  | VNone
  | VStr (s : string)
  | VInt (n : Z)
  | VList (l : list value)
  | VAnalyst (a : Analyst)
  | VMessage (m : message).

Inductive exn :=
  | KeyError (key : string)
  | AttributeError (attr : string)
  | TypeError
  | ValueError
  | ModelCallError.

Inductive result (A : Type) :=
  | Ok (a : A)
  | Raise (e : exn).
Arguments Ok {A} a.
Arguments Raise {A} e.

Global Instance result_ret : MRet result := fun _ a => Ok a.
Global Instance result_bind : MBind result := fun _ _ k r =>
  match r with
  | Ok a => k a
  | Raise e => Raise e
  end.

(** A [TypedDict] is a plain dictionary at run time: a node receives the
    keys that have been written so far and returns the keys it writes. *)
Abbreviation state := (gmap string value).

(** [d\[key\]]. *)
Definition getitem (d : state) (key : string) : result value :=
  match d !! key with
  | Some v => Ok v
  | None => Raise (KeyError key)
  end.

(** [d.get(key, default)]. *)
Definition get (d : state) (key : string) (default : value) : value :=
  match d !! key with
  | Some v => v
  | None => default
  end.

(** Truth value of an object in an [if]. *)
Definition truthy (v : value) : bool :=
  match v with
  | VNone => false
  | VStr s => negb (String.eqb s "")
  | VInt n => negb (Z.eqb n 0)
  | VList l => match l with [] => false | _ => true end
  | VAnalyst _ | VMessage _ => true
  end.

(** What the embedding leaves to the interpreter and the libraries:
    [str()] of an object that is not a [str], the iteration over an object
    other than a [list], [None] or an [int], and [+] on operands that are
    not two [str] or two [list]. *)
Class Runtime := {
  obj_str : value -> string;
  obj_iter : value -> result (list value);
  obj_add : value -> value -> result value
}.

Section Nodes.

Context {RT : Runtime}.

(** [str(v)], as an f-string or [str.format] field renders [v]. *)
Definition py_str (v : value) : string :=
  match v with
  | VStr s => s
  | _ => obj_str v
  end.

(** The items a [for] or a comprehension takes from [v]. *)
Definition py_iter (v : value) : result (list value) :=
  match v with
  | VList l => Ok l
  | VNone | VInt _ => Raise TypeError
  | _ => obj_iter v
  end.

(** [a + b], which is also [operator.add(a, b)]. *)
Definition operator_add (a b : value) : result value :=
  match a, b with
  | VStr s, VStr t => Ok (VStr (s +:+ t))
  | VList l, VList k => Ok (VList (l ++ k))
  | _, _ => obj_add a b
  end.

(** [v.startswith], [v.strip], [v.split]: attributes of [str] only. *)
Definition str_method (attr : string) (v : value) : result string :=
  match v with
  | VStr s => Ok s
  | _ => Raise (AttributeError attr)
  end.

(** The tuple assignment [a, b = l]. *)
Definition unpack2 (l : list string) : result (string * string) :=
  match l with
  | [a; b] => Ok (a, b)
  | _ => Raise ValueError
  end.

(** *** Prompt templates and [str.format] *)

Inductive piece :=
  | Lit (text : string)
  | Field (field : string).

Fixpoint format (template : list piece) (kwargs : state) : result string :=
  match template with
  | [] => Ok ""
  | Lit text :: rest =>
      tail ← format rest kwargs;
      Ok (text +:+ tail)
  | Field field :: rest =>
      v ← getitem kwargs field;
      tail ← format rest kwargs;
      Ok (py_str v +:+ tail)
  end.

Definition report_writer_instructions : list piece :=
  [ Lit "You are a technical writer creating a report on this overall topic:

";
    Field "topic";
    Lit "

You have a team of analysts. Each analyst has done two things:

1. They conducted an interview with an expert on a specific sub-topic.
2. They write up their finding into a memo.

Your task:

1. You will be given a collection of memos from your analysts.
2. Think carefully about the insights from each memo.
3. Consolidate these into a crisp overall summary that ties together the central ideas from all of the memos.
4. Summarize the central points in each memo into a cohesive single narrative.

To format your report:

1. Use markdown formatting.
2. Include no pre-amble for the report.
3. Use no sub-headings.
4. Start your report with a single title header: ## Insights
5. Do not mention any analyst names in your report.
6. Preserve any citations in the memos, which will be annotated in brackets, for example [1] or [2].
7. Create a final, consolidated list of sources and add to a Sources section with the '## Sources' header.
8. List your sources in order and do not repeat.

[1] Source 1
[2] Source 2

Here are the memos from your analysts to build your report from:

";
    Field "context";
    Lit "
" ].

Definition intro_conclusion_instructions : list piece :=
  [ Lit "You are a technical writer finishing a report on ";
    Field "topic";
    Lit "

You will be given all of the sections of the report.

Your job is to write a crisp and compelling introduction or conclusion section.

The user will instruct you whether to write the introduction or conclusion.

Include no pre-amble for either section.

Target around 100 words, crisply previewing (for introduction) or recapping (for conclusion) all of the sections of the report.

Use markdown formatting.

For your introduction, create a compelling title and use the # header for the title.

For your introduction, use ## Introduction as the section header.

For your conclusion, use ## Conclusion as the section header.

Here are the sections to reflect on for writing: ";
    Field "formatted_str_sections";
    Lit "
" ].

(** *** Programs that call the model

    [llm.invoke] is the one external call of the nodes.  A node is a
    program that either finishes or asks for a completion of a list of
    messages and goes on with the reply. *)

Inductive prog (A : Type) :=
  | Done (r : result A)
  | Invoke (messages : list message) (k : message -> prog A).
Arguments Done {A} r.
Arguments Invoke {A} messages k.

Fixpoint prog_bind {A B} (k : A -> prog B) (p : prog A) : prog B :=
  match p with
  | Done (Ok a) => k a
  | Done (Raise e) => Done (Raise e)
  | Invoke messages k' => Invoke messages (fun reply => prog_bind k (k' reply))
  end.

#[global] Instance prog_mret : MRet prog := fun _ a => Done (Ok a).
#[global] Instance prog_mbind : MBind prog := fun _ _ k p => prog_bind k p.

Definition invoke (messages : list message) : prog message :=
  Invoke messages (fun reply => Done (Ok reply)).

(** Running a program against a model. *)
Fixpoint run {A} (llm : list message -> result message) (p : prog A) : result A :=
  match p with
  | Done r => r
  | Invoke messages k =>
      match llm messages with
      | Ok reply => run llm (k reply)
      | Raise e => Raise e
      end
  end.

(** The messages of the first model call of a program. *)
Definition first_call {A} (p : prog A) : option (list message) :=
  match p with
  | Done _ => None
  | Invoke messages _ => Some messages
  end.

(** *** Routing after the human review *)

(** The framework's name of the terminal node. *)
Definition END : string := "__end__".

(** [Send(node, arg)]: one dispatch of [node] on the input [arg]. *)
Record Send := mkSend {
  node : string;
  arg : state
}.

(** A conditional edge returns the name of the next node or a list of
    dispatches. *)
Inductive route :=
  | Goto (target : string)
  | Fanout (sends : list Send).

(** [analyst_subgraph.should_continue]. *)
Definition should_continue (state : state) : string :=
  let human_analyst_feedback := get state "human_analyst_feedback" (VStr "") in
  if truthy human_analyst_feedback then "create_analysts"
  else END.

(** [research_graph.initiate_all_interviews]. *)
Definition initiate_all_interviews (state : state) : result route :=
  let human_analyst_feedback := get state "human_analyst_feedback" (VStr "") in
  if truthy human_analyst_feedback then Ok (Goto "create_analysts")
  else
    topic ← getitem state "topic";
    analysts ← getitem state "analysts";
    analysts ← py_iter analysts;
    Ok (Fanout
          (map (fun analyst =>
                  mkSend "conduct_interview"
                    (<["analyst" := analyst]>
                     (<["messages" :=
                          VList [VMessage (HumanMessage
                            ("So you said you were writing an article on "
                               +:+ py_str topic +:+ "?"))]]> ∅)))
               analysts)).

(** *** The three writers *)

(** [research_graph.write_report].  The reply itself is stored under
    [content], not its [content] attribute. *)
Definition write_report (state : state) : prog (gmap string value) :=
  sections ← Done (getitem state "sections");
  topic ← Done (getitem state "topic");
  sections ← Done (py_iter sections);
  let formatted_str_sections :=
    PyStr.join (PyStr.nl +:+ PyStr.nl) (map py_str sections) in
  system_message ← Done (format report_writer_instructions
    (<["topic" := topic]> (<["context" := VStr formatted_str_sections]> ∅)));
  report ← invoke [SystemMessage system_message;
                   HumanMessage "Write a report based upon these memos."];
  mret (<["content" := VMessage report]> ∅).

(** [research_graph.write_introduction]. *)
Definition write_introduction (state : state) : prog (gmap string value) :=
  sections ← Done (getitem state "sections");
  topic ← Done (getitem state "topic");
  sections ← Done (py_iter sections);
  let formatted_str_sections :=
    PyStr.join (PyStr.nl +:+ PyStr.nl) (map py_str sections) in
  system_message ← Done (format intro_conclusion_instructions
    (<["topic" := topic]>
     (<["formatted_str_sections" := VStr formatted_str_sections]> ∅)));
  introduction ← invoke [SystemMessage system_message;
                         HumanMessage "Write an introduction for this report."];
  mret (<["introduction" := VStr (content_of introduction)]> ∅).

(** [research_graph.write_conclusion]. *)
Definition write_conclusion (state : state) : prog (gmap string value) :=
  sections ← Done (getitem state "sections");
  topic ← Done (getitem state "topic");
  sections ← Done (py_iter sections);
  let formatted_str_sections :=
    PyStr.join (PyStr.nl +:+ PyStr.nl) (map py_str sections) in
  system_message ← Done (format intro_conclusion_instructions
    (<["topic" := topic]>
     (<["formatted_str_sections" := VStr formatted_str_sections]> ∅)));
  conclusion ← invoke [SystemMessage system_message;
                       HumanMessage "Write a conclusion for this report."];
  mret (<["conclusion" := VStr (content_of conclusion)]> ∅).

(** *** The reduce step *)

Definition separator : string :=
  PyStr.nl +:+ PyStr.nl +:+ "---" +:+ PyStr.nl +:+ PyStr.nl.

Definition sources_marker : string :=
  PyStr.nl +:+ "## Sources" +:+ PyStr.nl.

(** The literal of line 162. *)
Definition sources_header : string :=
  PyStr.nl +:+ PyStr.nl +:+ "---" +:+ PyStr.nl +:+ PyStr.nl
    +:+ "## Sources" +:+ PyStr.nl +:+ PyStr.nl.

(** Lines 150-151: the marker test and the [strip] call. *)
Definition strip_insights (content : string) : string :=
  if PyStr.startswith "## Insights" content
  then PyStr.strip "## Insights" content
  else content.

(** Lines 152-158: the body and the sources, [None] when the text is left
    unsplit.  The bare [except] catches the failed tuple assignment. *)
Definition split_sources (content : string) : string * option string :=
  if PyStr.contains "## Sources" content then
    match unpack2 (PyStr.split sources_marker content) with
    | Ok (content', sources) => (content', Some sources)
    | Raise _ => (content, None)
    end
  else (content, None).

(** [research_graph.finalize_report]. *)
Definition finalize_report (state : state) : result (gmap string value) :=
  content ← getitem state "content";
  content ← str_method "startswith" content;
  let content := strip_insights content in
  let '(content, sources) := split_sources content in
  introduction ← getitem state "introduction";
  r ← operator_add introduction (VStr separator);
  r ← operator_add r (VStr content);
  r ← operator_add r (VStr separator);
  conclusion ← getitem state "conclusion";
  final_report ← operator_add r conclusion;
  final_report ←
    match sources with
    | Some sources =>
        operator_add final_report (VStr (sources_header +:+ sources))
    | None => Ok final_report
    end;
  Ok (<["final_report" := final_report]> ∅).

(** *** Writing an update into the state *)

(** [research_schema.ResearchGraphState]: [sections] is annotated with
    [operator.add]; the other keys carry no reducer. *)
Definition reducer (key : string) : option (value -> value -> result value) :=
  if String.eqb key "sections" then Some operator_add else None.

(** One written key: a key with a reducer is combined with the value the
    state holds (the empty list when none has been written), a key without
    one is replaced. *)
Definition write_key (state : state) (key : string) (v : value) : result (gmap string value) :=
  match reducer key with
  | Some f =>
      merged ← f (get state key (VList [])) v;
      Ok (<[key := merged]> state)
  | None => Ok (<[key := v]> state)
  end.

(** The update a node returns, written key by key. *)
Definition apply_update (state update : state) : result (gmap string value) :=
  foldr (fun kv acc => state' ← acc; write_key state' kv.1 kv.2)
        (Ok state) (map_to_list update).

(** Fan-in: the updates of the parallel branches, written one after the
    other in the order [updates] lists them. *)
Definition fan_in (state : state) (updates : list (gmap string value)) : result (gmap string value) :=
  foldl (fun acc update => state' ← acc; apply_update state' update)
        (Ok state) updates.

End Nodes.

Arguments Done {A} r.
Arguments Invoke {A} messages k.

(** ** The specification's reading of the reduce step *)

(** Section 4.6, step 3, in the specification's words: introduction,
    separator, body, separator, conclusion and, when sources are present,
    another separator, the header and the sources. *)
Definition assemble (introduction body conclusion : string)
    (sources : option string) : string :=
  let document :=
    introduction +:+ separator +:+ body +:+ separator +:+ conclusion in
  match sources with
  | Some sources =>
      document +:+ separator +:+ "## Sources" +:+ PyStr.nl +:+ PyStr.nl +:+ sources
  | None => document
  end.

(** Section 4.6, step 2, in the specification's words: when the marker
    occurs, the body and the sources are the text before and after its
    first occurrence. *)
Definition split_at_first_occurrence (content : string) : string * option string :=
  match PyStr.find sources_marker content with
  | Some (body, sources) => (body, Some sources)
  | None => (content, None)
  end.

(** [sep] occurs in [s] between [before] and [after], and nowhere further
    to the left. *)
Definition first_occurrence (sep s before after : string) : Prop :=
  s = before +:+ sep +:+ after /\
  forall a b, s = a +:+ sep +:+ b -> String.length before <= String.length a.

(** A runtime in which objects other than [str] and [list] support none of
    the delegated operations; used to evaluate the nodes on examples. *)
Definition plain_runtime : Runtime := {|
  obj_str := fun _ => "";
  obj_iter := fun _ => Raise TypeError;
  obj_add := fun _ _ => Raise TypeError
|}.

(** The state the reduce step reads: the three texts of the writers. *)
Definition texts (introduction content conclusion : string) : gmap string value :=
  <["introduction" := VStr introduction]>
    (<["content" := VStr content]>
       (<["conclusion" := VStr conclusion]> ∅)).

(** [state] holds the three texts the reduce step reads, as strings. *)
Definition holds_texts (state : gmap string value)
    (introduction content conclusion : string) : Prop :=
  state !! "introduction" = Some (VStr introduction) /\
  state !! "content" = Some (VStr content) /\
  state !! "conclusion" = Some (VStr conclusion).

(** No feedback was left on the panel: the key is absent, [None] or the
    empty string. *)
Definition no_feedback (state : gmap string value) : Prop :=
  state !! "human_analyst_feedback" = None \/
  state !! "human_analyst_feedback" = Some VNone \/
  state !! "human_analyst_feedback" = Some (VStr "").

(** The update one interview branch returns: its memos under [sections]. *)
Definition sections_update (memos : list value) : gmap string value :=
  <["sections" := VList memos]> ∅.

(** The dispatch of one interview, lines 24-29. *)
Definition interview (topic : string) (analyst : value) : Send :=
  mkSend "conduct_interview"
    (<["analyst" := analyst]>
     (<["messages" :=
          VList [VMessage (HumanMessage
            ("So you said you were writing an article on " +:+ topic +:+ "?"))]]>
        ∅)).

(** *** Example inputs *)

Module Examples.
Import PyStr.

(** The content of the specification's finalization example. *)
Definition content : string :=
  "## Insights" +:+ nl +:+ "Body" +:+ nl +:+ "## Sources" +:+ nl +:+ "[1] A".

(** The report the specification expects for it. *)
Definition expected_report : string :=
  "Intro" +:+ nl +:+ nl +:+ "---" +:+ nl +:+ nl +:+
  "Body" +:+ nl +:+ nl +:+ "---" +:+ nl +:+ nl +:+
  "Concl" +:+ nl +:+ nl +:+ "---" +:+ nl +:+ nl +:+
  "## Sources" +:+ nl +:+ nl +:+ "[1] A".

(** The report the code returns for it: the line feed that follows the
    marker stays in front of the body. *)
Definition returned_report : string :=
  "Intro" +:+ nl +:+ nl +:+ "---" +:+ nl +:+ nl +:+
  nl +:+ "Body" +:+ nl +:+ nl +:+ "---" +:+ nl +:+ nl +:+
  "Concl" +:+ nl +:+ nl +:+ "---" +:+ nl +:+ nl +:+
  "## Sources" +:+ nl +:+ nl +:+ "[1] A".

(** A report whose last word ends in characters of the marker. *)
Definition results_content : string := "## Insights" +:+ nl +:+ "Results".

(** A report with two sources sections. *)
Definition twice_content : string :=
  "A" +:+ nl +:+ "## Sources" +:+ nl +:+ "B" +:+ nl +:+ "## Sources" +:+ nl +:+ "C".

(** A report without sources. *)
Definition body_content : string := "## Insights" +:+ nl +:+ "Body".

(** A state after the interviews, and a model that always gives the same
    reply. *)
Definition interviewed : gmap string value :=
  <["topic" := VStr "X"]>
    (<["sections" := VList [VStr "M1 [1]"; VStr "M2 [1]"]]> ∅).

Definition reply : message := AIMessage body_content.

Definition llm (_ : list message) : result message := Ok reply.

(** The state once the three writers have written their keys. *)
Definition drafted : gmap string value :=
  <["content" := VMessage reply]>
    (<["introduction" := VStr "Intro"]>
       (<["conclusion" := VStr "Concl"]> interviewed)).


(** A panel of two analysts under review. *)
Definition panel : list value :=
  [VAnalyst (mkAnalyst "Ada" "Lab" "Engineer" "Systems");
   VAnalyst (mkAnalyst "Bob" "Inc" "Founder" "Products")].

Definition reviewed (feedback : option value) : gmap string value :=
  let base : gmap string value :=
    <["topic" := VStr "X"]> (<["analysts" := VList panel]> ∅) in
  match feedback with
  | Some v => <["human_analyst_feedback" := v]> base
  | None => base
  end.

(** The input of the analyst generation, and a structured model that
    always gives the same panel. *)
Definition requested (feedback : option value) : gmap string value :=
  let base : gmap string value :=
    <["topic" := VStr "X"]> (<["max_analysts" := VInt 2]> ∅) in
  match feedback with
  | Some v => <["human_analyst_feedback" := v]> base
  | None => base
  end.

Definition structured (_ : list message) : result value := Ok (VList panel).

End Examples.

(** ** The analyst-generation nodes *)

Section AnalystNodes.
Context {RT : Runtime}.

Definition analyst_instructions : list piece :=
  [ Lit "You are tasked with creating a set of AI analyst personas. Follow these instructions carefully:

1. First, review the research topic:
";
    Field "topic";
    Lit "

2. Examine any editorial feedback that has been optionally provided to guide creation of analysts:
";
    Field "human_analyst_feedback";
    Lit "

3. Determine the most interesting themes based upon documents and / or feedback above.

4. Pick the top ";
    Field "max_analysts";
    Lit " themes.

5. Assign one analyst to each theme.
" ].

(** [analyst_subgraph.create_analysts].  [structured_llm] stands for
    [llm.with_structured_output(Perspectives).invoke]: from the messages to
    the object the reply of the model is parsed into. *)
Definition create_analysts (structured_llm : list message -> result value)
    (state : state) : result (gmap string value) :=
  topic ← getitem state "topic";
  max_analysts ← getitem state "max_analysts";
  let human_analyst_feedback := get state "human_analyst_feedback" (VStr "") in
  system_message ← format analyst_instructions
    (<["topic" := topic]>
     (<["human_analyst_feedback" := human_analyst_feedback]>
      (<["max_analysts" := max_analysts]> ∅)));
  analysts ← structured_llm [SystemMessage system_message;
                             HumanMessage "Generate the set of analysts."];
  Ok (<["analysts" := analysts]> ∅).

(** [analyst_subgraph.human_feedback]: the body is [pass], the node writes
    no key. *)
Definition human_feedback (state : state) : gmap string value := ∅.

End AnalystNodes.

(** ** Character sets at the ends of a string *)

Module PyChars.
Import PyStr.

(** Every character of [s] is one of [chars]. *)
Fixpoint all_in (chars s : string) : bool :=
  match s with
  | "" => true
  | String c s' => mem c chars && all_in chars s'
  end.

(** [s] begins with one of [chars]. *)
Definition head_in (chars s : string) : bool :=
  match s with
  | "" => false
  | String c _ => mem c chars
  end.

(** [s] ends with one of [chars]. *)
Fixpoint last_in (chars s : string) : bool :=
  match s with
  | "" => false
  | String c s' =>
      match s' with
      | "" => mem c chars
      | String _ _ => last_in chars s'
      end
  end.

End PyChars.

(** ** Facts about the string operations *)

Module PyStrFacts.
Import PyStr.

Local Arguments String.append !_ _ / : simpl nomatch.

Lemma app_assoc (a b c : string) : (a +:+ b) +:+ c = a +:+ (b +:+ c).
Proof. induction a as [|x a IH]; simpl; [reflexivity | now rewrite IH]. Qed.

Lemma app_nil_r (a : string) : a +:+ "" = a.
Proof. induction a as [|x a IH]; simpl; [reflexivity | now rewrite IH]. Qed.

Lemma length_app (a b : string) :
  String.length (a +:+ b) = String.length a + String.length b.
Proof. induction a as [|x a IH]; simpl; [reflexivity | now rewrite IH]. Qed.

Lemma app_inv_length (a a' b b' : string) :
  a +:+ b = a' +:+ b' -> String.length a = String.length a' ->
  a = a' /\ b = b'.
Proof.
  revert a'. induction a as [|x a IH]; intros [|y a']; simpl; intros E L;
    try discriminate.
  - now split.
  - injection E as -> E. injection L as L.
    destruct (IH _ E L) as [-> ->]. now split.
Qed.

Lemma startswith_app (p r : string) : startswith p (p +:+ r) = true.
Proof.
  induction p as [|x p IH]; simpl; [reflexivity|].
  now rewrite Ascii.eqb_refl, IH.
Qed.

Lemma startswith_inv (p s : string) :
  startswith p s = true -> s = p +:+ drop (String.length p) s.
Proof.
  revert s. induction p as [|x p IH]; intros [|y s]; simpl; try easy.
  intros H. apply andb_true_iff in H as [Hx Hp].
  apply Ascii.eqb_eq in Hx as ->. now rewrite <- IH.
Qed.

Lemma startswith_iff (p s : string) :
  startswith p s = true <-> exists r, s = p +:+ r.
Proof.
  split.
  - intros H. eexists. now apply startswith_inv.
  - intros [r ->]. apply startswith_app.
Qed.

Lemma contains_startswith (sub s : string) :
  startswith sub s = true -> contains sub s = true.
Proof. destruct s; simpl; intros ->; reflexivity. Qed.

Lemma contains_iff (sub s : string) :
  contains sub s = true <-> exists a b, s = a +:+ sub +:+ b.
Proof.
  split.
  - induction s as [|c s IH]; intros H.
    + assert (Hs : startswith sub "" = true)
        by (destruct sub; [reflexivity | discriminate H]).
      apply startswith_iff in Hs as [r Hr]. exists "", r. exact Hr.
    + simpl in H. apply orb_true_iff in H as [H|H].
      * apply startswith_iff in H as [r Hr]. exists "", r. exact Hr.
      * destruct (IH H) as (a & b & ->). now exists (String c a), b.
  - intros (a & b & ->). induction a as [|c a IH]; simpl.
    + apply contains_startswith, startswith_app.
    + rewrite IH. apply orb_true_r.
Qed.

Lemma contains_within (sub l m r : string) :
  contains sub m = true -> contains sub (l +:+ m +:+ r) = true.
Proof.
  intros H. apply contains_iff in H as (a & b & ->). apply contains_iff.
  exists (l +:+ a), (b +:+ r). now rewrite !app_assoc.
Qed.

Lemma lstrip_suffix (chars s : string) : exists l, s = l +:+ lstrip chars s.
Proof.
  induction s as [|c s [l IH]]; simpl.
  - now exists "".
  - destruct (mem c chars).
    + exists (String c l). simpl. now rewrite <- IH.
    + now exists "".
Qed.

Lemma rstrip_prefix (chars s : string) : exists r, s = rstrip chars s +:+ r.
Proof.
  induction s as [|c s [r IH]]; simpl.
  - now exists "".
  - destruct (rstrip chars s) as [|d t] eqn:E.
    + simpl in IH. subst r. destruct (mem c chars).
      * now exists (String c s).
      * now exists s.
    + exists r. simpl. now rewrite IH at 1.
Qed.

Lemma strip_within (chars s : string) :
  exists l r, s = l +:+ strip chars s +:+ r.
Proof.
  unfold strip. destruct (lstrip_suffix chars s) as [l Hl].
  destruct (rstrip_prefix chars (lstrip chars s)) as [r Hr].
  exists l, r. now rewrite <- Hr.
Qed.

Lemma contains_strip (sub chars s : string) :
  contains sub s = false -> contains sub (strip chars s) = false.
Proof.
  intros H. destruct (contains sub (strip chars s)) eqn:E; [|reflexivity].
  destruct (strip_within chars s) as (l & r & Hs).
  rewrite Hs, contains_within in H; [discriminate | exact E].
Qed.

Lemma find_unfold (sep s : string) :
  find sep s =
  if startswith sep s then Some ("", drop (String.length sep) s)
  else match s with
       | "" => None
       | String c s' =>
           match find sep s' with
           | Some (a, b) => Some (String c a, b)
           | None => None
           end
       end.
Proof. destruct s; reflexivity. Qed.

Lemma find_Some (sep s a b : string) :
  find sep s = Some (a, b) -> s = a +:+ sep +:+ b.
Proof.
  revert a b. induction s as [|c s IH]; intros a b; rewrite find_unfold;
    destruct (startswith _ _) eqn:E; try discriminate.
  - intros [= <- <-]. now apply startswith_inv.
  - intros [= <- <-]. now apply startswith_inv.
  - destruct (find sep s) as [[a0 b0]|]; [|discriminate].
    intros [= <- <-]. simpl. now rewrite <- (IH a0 b0).
Qed.

Lemma find_None_iff (sep s : string) :
  find sep s = None <-> contains sep s = false.
Proof.
  induction s as [|c s IH]; rewrite find_unfold; simpl;
    destruct (startswith _ _); simpl; try easy.
  destruct (find sep s) as [[a0 b0]|]; split; try easy.
  - intros H. apply IH in H. discriminate.
  - intros _. now apply IH.
Qed.

Lemma find_leftmost (sep s a b : string) :
  find sep s = Some (a, b) ->
  forall a' b', s = a' +:+ sep +:+ b' -> String.length a <= String.length a'.
Proof.
  revert a b. induction s as [|c s IH]; intros a b; rewrite find_unfold;
    destruct (startswith _ _) eqn:E; try discriminate.
  - intros [= <- <-] a' b' _. simpl. lia.
  - intros [= <- <-] a' b' _. simpl. lia.
  - destruct (find sep s) as [[a0 b0]|] eqn:F; [|discriminate].
    intros [= <- <-] a' b' Hs. destruct a' as [|d a'].
    + simpl in Hs. rewrite Hs, startswith_app in E. discriminate.
    + simpl in Hs. injection Hs as -> Hs. simpl.
      specialize (IH _ _ eq_refl _ _ Hs). lia.
Qed.

Lemma find_first_occurrence (sep s a b : string) :
  find sep s = Some (a, b) <-> first_occurrence sep s a b.
Proof.
  split.
  - intros H. split; [now apply find_Some | now apply find_leftmost with b].
  - intros [Hs Hmin].
    destruct (find sep s) as [[a0 b0]|] eqn:F.
    + pose proof (find_Some _ _ _ _ F) as Hs0.
      pose proof (find_leftmost _ _ _ _ F _ _ Hs) as L.
      pose proof (Hmin _ _ Hs0) as L'.
      assert (E : a0 +:+ sep +:+ b0 = a +:+ sep +:+ b) by congruence.
      apply app_inv_length in E as [-> E]; [|lia].
      apply app_inv_length in E as [_ ->]; reflexivity.
    + apply find_None_iff in F.
      assert (C : contains sep s = true)
        by (apply contains_iff; now exists a, b).
      congruence.
Qed.

Lemma find_shorter (sep s a b : string) :
  0 < String.length sep -> find sep s = Some (a, b) ->
  String.length b < String.length s.
Proof.
  intros Hsep F. apply find_Some in F as ->. rewrite !length_app. lia.
Qed.

Lemma split_fuel_cons (fuel : nat) (sep s : string) :
  exists x rest, split_fuel fuel sep s = x :: rest.
Proof.
  destruct fuel as [|n]; cbn [split_fuel]; [now eauto|].
  destruct (find sep s) as [[a b]|]; eauto.
Qed.

Lemma find_empty (sep : string) :
  0 < String.length sep -> find sep "" = None.
Proof. destruct sep; simpl; [lia | reflexivity]. Qed.

(** The fuel of [split] never runs out: more fuel changes nothing. *)
Lemma split_fuel_enough (sep : string) :
  0 < String.length sep ->
  forall fuel s, String.length s <= fuel -> split_fuel fuel sep s = split sep s.
Proof.
  intros Hsep.
  assert (H : forall n m s, String.length s <= n -> String.length s <= m ->
                split_fuel n sep s = split_fuel m sep s).
  { induction n as [|n IH]; intros m s Hn Hm.
    - destruct s; [|simpl in Hn; lia].
      destruct m; cbn [split_fuel]; [reflexivity | now rewrite find_empty].
    - destruct m as [|m].
      + destruct s; [|simpl in Hm; lia]. cbn [split_fuel]. now rewrite find_empty.
      + cbn [split_fuel]. destruct (find sep s) as [[a b]|] eqn:F; [|reflexivity].
        pose proof (find_shorter _ _ _ _ Hsep F).
        f_equal. apply IH; lia. }
  intros fuel s Hf. unfold split. apply H; lia.
Qed.

Lemma split_unfold (sep s : string) :
  0 < String.length sep ->
  split sep s =
  match find sep s with
  | None => [s]
  | Some (a, b) => a :: split sep b
  end.
Proof.
  intros Hsep. destruct (find sep s) as [[a b]|] eqn:F.
  - pose proof (find_shorter _ _ _ _ Hsep F) as L.
    unfold split at 1. destruct (String.length s) as [|n] eqn:E; [lia|].
    cbn [split_fuel]. rewrite F. f_equal.
    apply split_fuel_enough; [exact Hsep | lia].
  - unfold split. destruct (String.length s); cbn [split_fuel]; now rewrite ?F.
Qed.

End PyStrFacts.

(** ** Facts about the reduce step *)

Section ReduceFacts.
Context {RT : Runtime}.
Import PyStr PyStrFacts.

Lemma sources_marker_nonempty : 0 < String.length sources_marker.
Proof. vm_compute. lia. Qed.

Lemma sources_marker_header (a b : string) :
  contains "## Sources" (a +:+ sources_marker +:+ b) = true.
Proof.
  apply contains_iff. exists (a +:+ nl), (nl +:+ b).
  unfold sources_marker. now rewrite !app_assoc.
Qed.

(** What lines 152-158 compute, in terms of the leftmost occurrence of the
    marker: the text is cut there when nothing but that one occurrence is
    found, and left whole otherwise. *)
Lemma split_sources_find (content : string) :
  split_sources content =
  match find sources_marker content with
  | Some (body, sources) =>
      if contains sources_marker sources then (content, None)
      else (body, Some sources)
  | None => (content, None)
  end.
Proof.
  unfold split_sources.
  rewrite (split_unfold _ _ sources_marker_nonempty).
  destruct (find sources_marker content) as [[body sources]|] eqn:F.
  - rewrite (find_Some _ _ _ _ F) at 1. rewrite sources_marker_header.
    rewrite (split_unfold _ _ sources_marker_nonempty).
    destruct (find sources_marker sources) as [[a b]|] eqn:G.
    + assert (C : contains sources_marker sources = true).
      { destruct (contains sources_marker sources) eqn:C; [reflexivity|].
        apply find_None_iff in C. congruence. }
      rewrite C.
      destruct (split_fuel_cons (String.length b) sources_marker b)
        as (x & rest & E).
      unfold split. rewrite E. reflexivity.
    + apply find_None_iff in G. rewrite G. reflexivity.
  - destruct (contains "## Sources" content); reflexivity.
Qed.

Lemma final_report_inj (u v : value) :
  Ok (<["final_report" := u]> (∅ : gmap string value)) =
  Ok (<["final_report" := v]> ∅) -> u = v.
Proof.
  intros E.
  apply (f_equal (fun r => match r with
                           | Ok m => m !! "final_report"
                           | Raise _ => None
                           end)) in E.
  rewrite !lookup_insert_eq in E. congruence.
Qed.

Lemma assemble_eq (introduction body conclusion : string) (sources : option string) :
  assemble introduction body conclusion sources =
  match sources with
  | Some sources =>
      ((((introduction +:+ separator) +:+ body) +:+ separator) +:+ conclusion)
        +:+ (sources_header +:+ sources)
  | None =>
      (((introduction +:+ separator) +:+ body) +:+ separator) +:+ conclusion
  end.
Proof.
  unfold assemble. destruct sources as [sources|].
  - rewrite !app_assoc. do 5 f_equal.
  - now rewrite !app_assoc.
Qed.

(** The reduce step on a state whose three texts are strings: it returns,
    and the report is the assembly of what lines 150-158 leave of
    [content]. *)
Lemma finalize_report_texts (state : gmap string value)
    (introduction content conclusion : string) :
  state !! "content" = Some (VStr content) ->
  state !! "introduction" = Some (VStr introduction) ->
  state !! "conclusion" = Some (VStr conclusion) ->
  finalize_report state =
  Ok (<["final_report" :=
          VStr (assemble introduction
                  (split_sources (strip_insights content)).1 conclusion
                  (split_sources (strip_insights content)).2)]> ∅).
Proof.
  intros Hc Hi Hk. unfold finalize_report, getitem.
  rewrite Hc, Hi, Hk. rewrite assemble_eq.
  cbv beta iota delta [mbind result_bind str_method].
  destruct (split_sources (strip_insights content)) as [body [sources|]];
    reflexivity.
Qed.

End ReduceFacts.

(** ** The reduce step: the specification's statements *)

Section Reduce.
Context {RT : Runtime}.
Import PyStr PyStrFacts.

(** C1, as amended.  For the specification's example (content
    [## Insights\nBody\n## Sources\n\[1\] A], introduction [Intro],
    conclusion [Concl]) the reduce step returns
    [Intro\n\n---\n\n\nBody\n\n---\n\nConcl\n\n---\n\n## Sources\n\n\[1\] A]:
    the marker is stripped, the sources are extracted and reattached under
    the header, the parts are joined by the separator, and the line feed
    that followed the marker stays in front of the body. *)
Theorem finalize_report_example :
  finalize_report (texts "Intro" Examples.content "Concl") =
  Ok (<["final_report" := VStr Examples.returned_report]> ∅).
Proof.
  rewrite (finalize_report_texts _ "Intro" Examples.content "Concl")
    by (vm_compute; reflexivity).
  do 3 f_equal.
Qed.

(** C2: the code at a failing input.  [strip] takes its argument as a set
    of characters and works on both ends: of the content
    [## Insights\nResults] it removes the marker and also the final [ts],
    so the report holds [\nResul] where removing the marker alone leaves
    [\nResults]. *)
Theorem strip_insights_eats_the_tail :
  startswith "## Insights" Examples.results_content = true /\
  Examples.results_content = "## Insights" +:+ nl +:+ "Results" /\
  strip_insights Examples.results_content = nl +:+ "Resul" /\
  finalize_report (texts "Intro" Examples.results_content "Concl") =
  Ok (<["final_report" :=
          VStr ("Intro" +:+ separator +:+ nl +:+ "Resul"
                  +:+ separator +:+ "Concl")]> ∅).
Proof.
  split; [reflexivity|]. split; [reflexivity|]. split; [reflexivity|].
  rewrite (finalize_report_texts _ "Intro" Examples.results_content "Concl")
    by (vm_compute; reflexivity).
  do 3 f_equal.
Qed.

(** C3, as amended.  Let [c] be the content after the marker step of lines
    150-151.  When the sources marker [\n## Sources\n] occurs in [c] and
    the text after its first occurrence holds no further occurrence, the
    report is assembled from the text before it as body and the text after
    it as sources.  When the text after the first occurrence holds the
    marker again, or the marker does not occur in [c] at all, the sources
    are absent and [c] is kept unsplit.  In every case the step returns a
    report and raises nothing. *)
Theorem finalize_report_sources (state : gmap string value)
    (introduction content conclusion : string) :
  holds_texts state introduction content conclusion ->
  let c := strip_insights content in
  let report body sources :=
    Ok (<["final_report" :=
            VStr (assemble introduction body conclusion sources)]> ∅) in
  (forall body sources,
      first_occurrence sources_marker c body sources ->
      finalize_report state =
      if contains sources_marker sources then report c None
      else report body (Some sources)) /\
  (contains sources_marker c = false ->
   finalize_report state = report c None) /\
  (exists body sources, finalize_report state = report body sources).
Proof.
  intros (Hi & Hc & Hk) c report.
  pose proof (finalize_report_texts state _ _ _ Hc Hi Hk) as E.
  fold c in E. rewrite split_sources_find in E.
  repeat split.
  - intros body sources Hfirst. apply find_first_occurrence in Hfirst.
    rewrite Hfirst in E. rewrite E.
    destruct (contains sources_marker sources); reflexivity.
  - intros Hno. apply find_None_iff in Hno. rewrite Hno in E. exact E.
  - rewrite E. eexists _, _. reflexivity.
Qed.

(** C4, as amended.  For every content without the substring
    [## Sources] no sources section is appended, and the report is
    introduction, separator, the content after the marker step of lines
    150-151, separator, conclusion; that content is the content itself
    when it does not begin with [## Insights]. *)
Theorem finalize_report_without_sources (state : gmap string value)
    (introduction content conclusion : string) :
  holds_texts state introduction content conclusion ->
  contains "## Sources" content = false ->
  finalize_report state =
  Ok (<["final_report" :=
          VStr (introduction +:+ separator +:+ strip_insights content
                  +:+ separator +:+ conclusion)]> ∅) /\
  (startswith "## Insights" content = false ->
   finalize_report state =
   Ok (<["final_report" :=
           VStr (introduction +:+ separator +:+ content
                   +:+ separator +:+ conclusion)]> ∅)).
Proof.
  intros (Hi & Hc & Hk) Hno.
  assert (E : finalize_report state =
              Ok (<["final_report" :=
                      VStr (introduction +:+ separator +:+ strip_insights content
                              +:+ separator +:+ conclusion)]> ∅)).
  { rewrite (finalize_report_texts state _ _ _ Hc Hi Hk).
    assert (Hs : contains "## Sources" (strip_insights content) = false).
    { unfold strip_insights. destruct (startswith _ content);
        [now apply contains_strip | exact Hno]. }
    unfold split_sources. rewrite Hs. reflexivity. }
  split; [exact E|].
  intros Hstart. rewrite E. unfold strip_insights. now rewrite Hstart.
Qed.

End Reduce.

(** A state with the texts of the specification's example. *)
Lemma finalize_report_sources_witness :
  holds_texts (texts "Intro" Examples.content "Concl")
    "Intro" Examples.content "Concl" /\
  first_occurrence sources_marker (strip_insights Examples.content)
    (PyStr.nl +:+ "Body") "[1] A" /\
  @finalize_report plain_runtime (texts "Intro" Examples.content "Concl") =
  Ok (<["final_report" :=
          VStr (assemble "Intro" (PyStr.nl +:+ "Body") "Concl" (Some "[1] A"))]> ∅).
Proof.
  assert (H : holds_texts (texts "Intro" Examples.content "Concl")
                "Intro" Examples.content "Concl")
    by (repeat split; vm_compute; reflexivity).
  assert (F : first_occurrence sources_marker (strip_insights Examples.content)
                (PyStr.nl +:+ "Body") "[1] A")
    by (apply PyStrFacts.find_first_occurrence; vm_compute; reflexivity).
  split; [exact H|]. split; [exact F|].
  exact (proj1 (@finalize_report_sources plain_runtime _ _ _ _ H) _ _ F).
Defined.

(** A content that is a plain body. *)
Lemma finalize_report_without_sources_witness :
  holds_texts (texts "Intro" "Body" "Concl") "Intro" "Body" "Concl" /\
  PyStr.contains "## Sources" "Body" = false /\
  @finalize_report plain_runtime (texts "Intro" "Body" "Concl") =
  Ok (<["final_report" :=
          VStr ("Intro" +:+ separator +:+ "Body" +:+ separator +:+ "Concl")]> ∅).
Proof.
  assert (H : holds_texts (texts "Intro" "Body" "Concl") "Intro" "Body" "Concl")
    by (repeat split; vm_compute; reflexivity).
  split; [exact H|]. split; [reflexivity|].
  exact (proj1 (@finalize_report_without_sources plain_runtime _ _ _ _ H eq_refl)).
Defined.

(** C3, as stated, fails: in a content with two sources sections the marker
    occurs, yet the report is not the one cut at its first occurrence; the
    content is left whole and no sources are attached. *)
Lemma finalize_report_not_cut_at_first_occurrence :
  PyStr.contains sources_marker Examples.twice_content = true /\
  split_at_first_occurrence Examples.twice_content =
    ("A", Some ("B" +:+ sources_marker +:+ "C")) /\
  @finalize_report plain_runtime (texts "Intro" Examples.twice_content "Concl") =
  Ok (<["final_report" :=
          VStr (assemble "Intro" Examples.twice_content "Concl" None)]> ∅) /\
  @finalize_report plain_runtime (texts "Intro" Examples.twice_content "Concl") <>
  Ok (<["final_report" :=
          VStr (assemble "Intro"
                  (split_at_first_occurrence Examples.twice_content).1 "Concl"
                  (split_at_first_occurrence Examples.twice_content).2)]> ∅).
Proof.
  assert (E : @finalize_report plain_runtime
                (texts "Intro" Examples.twice_content "Concl") =
              Ok (<["final_report" :=
                      VStr (assemble "Intro" Examples.twice_content "Concl" None)]> ∅)).
  { rewrite (finalize_report_texts _ "Intro" Examples.twice_content "Concl")
      by (vm_compute; reflexivity).
    do 3 f_equal. }
  repeat split; try reflexivity; try exact E.
  rewrite E. intros N. apply final_report_inj in N.
  vm_compute in N. discriminate N.
Qed.

(** C4, as stated, fails: a content without [## Sources] that begins with
    the marker is not carried over unchanged. *)
Lemma finalize_report_content_changed :
  PyStr.contains "## Sources" Examples.body_content = false /\
  @finalize_report plain_runtime (texts "Intro" Examples.body_content "Concl") <>
  Ok (<["final_report" :=
          VStr ("Intro" +:+ separator +:+ Examples.body_content
                  +:+ separator +:+ "Concl")]> ∅).
Proof.
  split; [reflexivity|].
  rewrite (finalize_report_texts _ "Intro" Examples.body_content "Concl")
    by (vm_compute; reflexivity).
  intros N. apply final_report_inj in N. vm_compute in N. discriminate N.
Qed.

(** C1, as stated, fails: the report of the example is not the text the
    specification gives, which has no line feed between the separator and
    [Body]. *)
Lemma finalize_report_example_not_expected :
  @finalize_report plain_runtime (texts "Intro" Examples.content "Concl") <>
  Ok (<["final_report" := VStr Examples.expected_report]> ∅).
Proof.
  rewrite (finalize_report_texts _ "Intro" Examples.content "Concl")
    by (vm_compute; reflexivity).
  intros E. apply final_report_inj in E. vm_compute in E. discriminate E.
Qed.

(** ** Routing, the writers and the fan-in *)

Section Workflow.
Context {RT : Runtime}.

Lemma bind_Ok {A B} (r : result A) (k : A -> result B) (b : B) :
  r ≫= k = Ok b -> exists a, r = Ok a /\ k a = Ok b.
Proof. destruct r as [a|e]; [now exists a | discriminate]. Qed.

Lemma no_feedback_falsy (state : gmap string value) :
  no_feedback state ->
  truthy (get state "human_analyst_feedback" (VStr "")) = false.
Proof. unfold get. intros [-> | [-> | ->]]; reflexivity. Qed.

Lemma feedback_truthy (state : gmap string value) (feedback : string) :
  state !! "human_analyst_feedback" = Some (VStr feedback) ->
  feedback <> "" ->
  truthy (get state "human_analyst_feedback" (VStr "")) = true.
Proof.
  unfold get. intros -> Hne. simpl.
  apply String.eqb_neq in Hne. now rewrite Hne.
Qed.

(** C6.  After the human review the panel is regenerated exactly when
    feedback was given: with
    a non-empty string under [human_analyst_feedback] both routing
    functions return [create_analysts]; with the key absent, [None] or the
    empty string, [should_continue] returns [END] and
    [initiate_all_interviews] does not go back to [create_analysts] but
    fans out over the panel the state holds. *)
Theorem feedback_routing (state : gmap string value) :
  (forall feedback,
      state !! "human_analyst_feedback" = Some (VStr feedback) ->
      feedback <> "" ->
      should_continue state = "create_analysts" /\
      initiate_all_interviews state = Ok (Goto "create_analysts")) /\
  (no_feedback state ->
   should_continue state = END /\
   initiate_all_interviews state <> Ok (Goto "create_analysts") /\
   forall topic analysts,
     state !! "topic" = Some topic ->
     state !! "analysts" = Some (VList analysts) ->
     exists sends,
       initiate_all_interviews state = Ok (Fanout sends) /\
       length sends = length analysts).
Proof.
  split.
  - intros feedback Hf Hne. unfold should_continue, initiate_all_interviews.
    now rewrite (feedback_truthy _ _ Hf Hne).
  - intros Hno. unfold should_continue, initiate_all_interviews.
    rewrite (no_feedback_falsy _ Hno). split; [reflexivity|]. split.
    + destruct (getitem state "topic") as [topic|e]; [|discriminate].
      destruct (getitem state "analysts") as [analysts|e]; [|discriminate].
      cbv beta iota delta [mbind result_bind].
      destruct (py_iter analysts) as [items|e]; discriminate.
    + intros topic analysts Ht Ha. unfold getitem. rewrite Ht, Ha.
      eexists. split; [reflexivity|]. now rewrite length_map.
Qed.

(** C7.  Without feedback, [initiate_all_interviews] returns one
    [conduct_interview] dispatch per element of the panel, in the order of
    the panel; each carries its analyst and one human message that names the
    topic. *)
Theorem initiate_all_interviews_fan_out (state : gmap string value)
    (topic : string) (analysts : list value) :
  no_feedback state ->
  state !! "topic" = Some (VStr topic) ->
  state !! "analysts" = Some (VList analysts) ->
  initiate_all_interviews state = Ok (Fanout (map (interview topic) analysts)) /\
  length (map (interview topic) analysts) = length analysts /\
  (forall i analyst,
      analysts !! i = Some analyst ->
      map (interview topic) analysts !! i = Some (interview topic analyst)).
Proof.
  intros Hno Ht Ha. split; [|split].
  - unfold initiate_all_interviews, getitem.
    rewrite (no_feedback_falsy _ Hno), Ht, Ha. reflexivity.
  - apply length_map.
  - clear Ha. intros i. revert analysts.
    induction i as [|i IH]; intros [|a analysts] analyst Hi;
      try discriminate.
    + injection Hi as ->. reflexivity.
    + apply (IH analysts). exact Hi.
Qed.

(** [str.format] on a template with two fields. *)
Lemma format_two_fields (a f b g c : string) (vf vg : value) :
  f <> g ->
  format [Lit a; Field f; Lit b; Field g; Lit c] (<[f := vf]> (<[g := vg]> ∅)) =
  Ok (a +:+ py_str vf +:+ b +:+ py_str vg +:+ c +:+ "").
Proof.
  intros Hne. cbn [format]. unfold getitem.
  rewrite lookup_insert_eq, lookup_insert_ne, lookup_insert_eq by exact Hne.
  reflexivity.
Qed.

Lemma write_report_call (state : gmap string value) (topic : value)
    (sections : list value) (prompt : string) :
  state !! "sections" = Some (VList sections) ->
  state !! "topic" = Some topic ->
  format report_writer_instructions
    (<["topic" := topic]>
     (<["context" :=
          VStr (PyStr.join (PyStr.nl +:+ PyStr.nl) (map py_str sections))]> ∅)) =
  Ok prompt ->
  write_report state =
  Invoke [SystemMessage prompt;
          HumanMessage "Write a report based upon these memos."]
         (fun report => Done (Ok (<["content" := VMessage report]> ∅))).
Proof.
  intros Hs Ht Hf. unfold write_report, getitem. rewrite Hs, Ht.
  cbv beta iota zeta delta [mbind prog_mbind prog_bind py_iter].
  rewrite Hf. reflexivity.
Qed.

Lemma write_introduction_call (state : gmap string value) (topic : value)
    (sections : list value) (prompt : string) :
  state !! "sections" = Some (VList sections) ->
  state !! "topic" = Some topic ->
  format intro_conclusion_instructions
    (<["topic" := topic]>
     (<["formatted_str_sections" :=
          VStr (PyStr.join (PyStr.nl +:+ PyStr.nl) (map py_str sections))]> ∅)) =
  Ok prompt ->
  write_introduction state =
  Invoke [SystemMessage prompt;
          HumanMessage "Write an introduction for this report."]
         (fun introduction =>
            Done (Ok (<["introduction" := VStr (content_of introduction)]> ∅))).
Proof.
  intros Hs Ht Hf. unfold write_introduction, getitem. rewrite Hs, Ht.
  cbv beta iota zeta delta [mbind prog_mbind prog_bind py_iter].
  rewrite Hf. reflexivity.
Qed.

Lemma write_conclusion_call (state : gmap string value) (topic : value)
    (sections : list value) (prompt : string) :
  state !! "sections" = Some (VList sections) ->
  state !! "topic" = Some topic ->
  format intro_conclusion_instructions
    (<["topic" := topic]>
     (<["formatted_str_sections" :=
          VStr (PyStr.join (PyStr.nl +:+ PyStr.nl) (map py_str sections))]> ∅)) =
  Ok prompt ->
  write_conclusion state =
  Invoke [SystemMessage prompt;
          HumanMessage "Write a conclusion for this report."]
         (fun conclusion =>
            Done (Ok (<["conclusion" := VStr (content_of conclusion)]> ∅))).
Proof.
  intros Hs Ht Hf. unfold write_conclusion, getitem. rewrite Hs, Ht.
  cbv beta iota zeta delta [mbind prog_mbind prog_bind py_iter].
  rewrite Hf. reflexivity.
Qed.

(** C9.  The three writers build the same concatenated text from the
    sections of the state, the memos joined by a blank line, and each hands
    it to its model call as the field of its template: the report template
    takes it as [context], the introduction and the conclusion take it as
    [formatted_str_sections] of the one template they share. *)
Theorem writers_share_context (state : gmap string value) (topic : value)
    (sections : list value) :
  state !! "sections" = Some (VList sections) ->
  state !! "topic" = Some topic ->
  let context :=
    PyStr.join (PyStr.nl +:+ PyStr.nl) (map py_str sections) in
  exists report_prompt section_prompt,
    format report_writer_instructions
      (<["topic" := topic]> (<["context" := VStr context]> ∅)) =
    Ok report_prompt /\
    format intro_conclusion_instructions
      (<["topic" := topic]> (<["formatted_str_sections" := VStr context]> ∅)) =
    Ok section_prompt /\
    first_call (write_report state) =
    Some [SystemMessage report_prompt;
          HumanMessage "Write a report based upon these memos."] /\
    first_call (write_introduction state) =
    Some [SystemMessage section_prompt;
          HumanMessage "Write an introduction for this report."] /\
    first_call (write_conclusion state) =
    Some [SystemMessage section_prompt;
          HumanMessage "Write a conclusion for this report."].
Proof.
  intros Hs Ht context.
  destruct (format report_writer_instructions
              (<["topic" := topic]> (<["context" := VStr context]> ∅)))
    as [report_prompt|e] eqn:Hr.
  2: { unfold report_writer_instructions in Hr.
       rewrite format_two_fields in Hr by discriminate. discriminate Hr. }
  destruct (format intro_conclusion_instructions
              (<["topic" := topic]>
               (<["formatted_str_sections" := VStr context]> ∅)))
    as [section_prompt|e] eqn:Hi.
  2: { unfold intro_conclusion_instructions in Hi.
       rewrite format_two_fields in Hi by discriminate. discriminate Hi. }
  exists report_prompt, section_prompt.
  rewrite (write_report_call _ _ _ _ Hs Ht Hr).
  rewrite (write_introduction_call _ _ _ _ Hs Ht Hi).
  rewrite (write_conclusion_call _ _ _ _ Hs Ht Hi).
  repeat split; reflexivity.
Qed.

(** *** The sections accumulator *)

Lemma apply_update_sections (state : gmap string value) (old memos : list value) :
  get state "sections" (VList []) = VList old ->
  apply_update state (sections_update memos) =
  Ok (<["sections" := VList (old ++ memos)]> state).
Proof.
  intros Hold. unfold apply_update, sections_update.
  rewrite insert_empty, map_to_list_singleton. cbn [foldr fst snd].
  cbv beta iota delta [mbind result_bind]. unfold write_key.
  change (reducer "sections") with (Some operator_add).
  rewrite Hold. reflexivity.
Qed.

Lemma fan_in_sections (results : list (list value)) :
  forall (state : gmap string value) (old : list value),
    get state "sections" (VList []) = VList old ->
    exists state',
      fan_in state (map sections_update results) = Ok state' /\
      get state' "sections" (VList []) = VList (old ++ concat results) /\
      forall key, key <> "sections" -> state' !! key = state !! key.
Proof.
  induction results as [|memos results IH]; intros state old Hold.
  - exists state. cbn [map concat]. rewrite List.app_nil_r. now repeat split.
  - cbn [map concat]. unfold fan_in. cbn [foldl].
    change (Ok state ≫= _) with (apply_update state (sections_update memos)).
    rewrite (apply_update_sections _ _ _ Hold).
    fold (fan_in (<["sections" := VList (old ++ memos)]> state)
                 (map sections_update results)).
    destruct (IH (<["sections" := VList (old ++ memos)]> state)
                 (old ++ memos)%list)
      as (state' & Hrun & Hget & Hframe).
    { unfold get. now rewrite lookup_insert_eq. }
    exists state'. split; [exact Hrun|]. split.
    + now rewrite Hget, <- List.app_assoc.
    + intros key Hkey. rewrite (Hframe key Hkey). now apply lookup_insert_ne.
Qed.

Lemma concat_Permutation {A} (l k : list (list A)) :
  l ≡ₚ k -> concat l ≡ₚ concat k.
Proof.
  induction 1 as [|x l k _ IH|x y l|l k m _ IH1 _ IH2]; cbn [concat].
  - reflexivity.
  - now rewrite IH.
  - rewrite !List.app_assoc. f_equiv. apply Permutation_app_comm.
  - now rewrite IH1.
Qed.

(** C8.  The reducer of [sections] is [operator.add], list concatenation.
    Written into a state whose sections are [old], the contributions of the
    interview branches give [old] followed by every contribution, whole:
    nothing is overwritten.  Merged in another order, the same
    contributions give the same multiset of memos. *)
Theorem sections_fan_in_order_independent (state : gmap string value)
    (old : list value) (results results' : list (list value)) :
  get state "sections" (VList []) = VList old ->
  results ≡ₚ results' ->
  reducer "sections" = Some operator_add /\
  exists (state1 state2 : gmap string value) (merged merged' : list value),
    fan_in state (map sections_update results) = Ok state1 /\
    fan_in state (map sections_update results') = Ok state2 /\
    get state1 "sections" (VList []) = VList merged /\
    get state2 "sections" (VList []) = VList merged' /\
    merged = (old ++ concat results)%list /\
    merged' = (old ++ concat results')%list /\
    merged ≡ₚ merged'.
Proof.
  intros Hold Hperm. split; [reflexivity|].
  destruct (fan_in_sections results state old Hold) as (state1 & H1 & G1 & _).
  destruct (fan_in_sections results' state old Hold) as (state2 & H2 & G2 & _).
  exists state1, state2, (old ++ concat results)%list,
    (old ++ concat results')%list.
  repeat split; try assumption.
  now rewrite (concat_Permutation _ _ Hperm).
Qed.

(** *** The frame of the reduce step *)

Lemma finalize_report_Ok (state update : gmap string value) :
  finalize_report state = Ok update ->
  exists final_report, update = <["final_report" := final_report]> ∅.
Proof.
  unfold finalize_report. intros H.
  apply bind_Ok in H as (content & _ & H).
  apply bind_Ok in H as (text & _ & H).
  destruct (split_sources (strip_insights text)) as [body sources].
  do 7 (apply bind_Ok in H as (? & _ & H)).
  injection H as <-. eauto.
Qed.

(** C10.  An update the reduce step returns has the one key
    [final_report]; written into the state it leaves every other key as it
    was: topic, max_analysts, human_analyst_feedback, analysts, sections,
    introduction, content and conclusion. *)
Theorem finalize_report_frame (state update : gmap string value) :
  finalize_report state = Ok update ->
  dom update = {["final_report"]} /\
  exists state',
    apply_update state update = Ok state' /\
    forall key, key <> "final_report" -> state' !! key = state !! key.
Proof.
  intros H. apply finalize_report_Ok in H as [final_report ->].
  rewrite insert_empty. split; [apply dom_singleton_L|].
  exists (<["final_report" := final_report]> state). split.
  - unfold apply_update. rewrite map_to_list_singleton. reflexivity.
  - intros key Hkey. now apply lookup_insert_ne.
Qed.

End Workflow.

(** ** The statements at concrete states *)

(** C5: the code at a failing input.  With the memos [M1 \[1\]] and
    [M2 \[1\]] the one model call of [write_report] receives them joined by
    a blank line, but the value it returns for [content] is the reply
    object, not a string, where [write_introduction] returns the text of
    the reply; the reduce step then fails on [content.startswith]. *)
Theorem write_report_stores_the_message :
  (exists prompt,
      first_call (@write_report plain_runtime Examples.interviewed) =
      Some [SystemMessage prompt;
            HumanMessage "Write a report based upon these memos."] /\
      PyStr.contains ("M1 [1]" +:+ PyStr.nl +:+ PyStr.nl +:+ "M2 [1]") prompt
      = true) /\
  run Examples.llm (@write_report plain_runtime Examples.interviewed) =
  Ok (<["content" := VMessage Examples.reply]> ∅) /\
  run Examples.llm (@write_introduction plain_runtime Examples.interviewed) =
  Ok (<["introduction" := VStr (content_of Examples.reply)]> ∅) /\
  Examples.drafted !! "content" = Some (VMessage Examples.reply) /\
  @finalize_report plain_runtime Examples.drafted =
  Raise (AttributeError "startswith").
Proof.
  split; [|repeat split; vm_compute; reflexivity].
  eexists. split; vm_compute; reflexivity.
Qed.

(** Feedback on the example panel, and the panel accepted with [None]. *)
Lemma feedback_routing_witness :
  (should_continue (Examples.reviewed (Some (VStr "Add a founder"))) =
   "create_analysts" /\
   @initiate_all_interviews plain_runtime
     (Examples.reviewed (Some (VStr "Add a founder"))) =
   Ok (Goto "create_analysts")) /\
  no_feedback (Examples.reviewed (Some VNone)) /\
  should_continue (Examples.reviewed (Some VNone)) = END.
Proof.
  split.
  - apply (proj1 (@feedback_routing plain_runtime _) "Add a founder").
    + vm_compute. reflexivity.
    + discriminate.
  - assert (H : no_feedback (Examples.reviewed (Some VNone)))
      by (right; left; vm_compute; reflexivity).
    split; [exact H|].
    exact (proj1 (proj2 (@feedback_routing plain_runtime _) H)).
Defined.

(** The example panel of two analysts, accepted without feedback. *)
Lemma initiate_all_interviews_fan_out_witness :
  no_feedback (Examples.reviewed None) /\
  @initiate_all_interviews plain_runtime (Examples.reviewed None) =
  Ok (Fanout (map (interview "X") Examples.panel)) /\
  length (map (interview "X") Examples.panel) = 2.
Proof.
  assert (H : no_feedback (Examples.reviewed None))
    by (left; vm_compute; reflexivity).
  split; [exact H|].
  destruct (@initiate_all_interviews_fan_out plain_runtime
              (Examples.reviewed None) "X" Examples.panel H)
    as (Hrun & Hlen & _).
  - vm_compute. reflexivity.
  - vm_compute. reflexivity.
  - split; [exact Hrun | exact Hlen].
Defined.

(** Two memos, merged in both orders into a state without sections. *)
Lemma sections_fan_in_order_independent_witness :
  exists (state1 state2 : gmap string value),
    @fan_in plain_runtime ∅
      (map sections_update [[VStr "M1 [1]"]; [VStr "M2 [1]"]]) = Ok state1 /\
    @fan_in plain_runtime ∅
      (map sections_update [[VStr "M2 [1]"]; [VStr "M1 [1]"]]) = Ok state2 /\
    get state1 "sections" (VList []) = VList [VStr "M1 [1]"; VStr "M2 [1]"] /\
    get state2 "sections" (VList []) = VList [VStr "M2 [1]"; VStr "M1 [1]"].
Proof.
  destruct (@sections_fan_in_order_independent plain_runtime ∅ []
              [[VStr "M1 [1]"]; [VStr "M2 [1]"]]
              [[VStr "M2 [1]"]; [VStr "M1 [1]"]])
    as (_ & state1 & state2 & merged & merged' & H1 & H2 & G1 & G2 & -> & -> & _).
  - vm_compute. reflexivity.
  - apply perm_swap.
  - exists state1, state2. repeat split; assumption.
Defined.

(** The writers on the example state with two memos. *)
Lemma writers_share_context_witness :
  exists section_prompt,
    first_call (@write_introduction plain_runtime Examples.interviewed) =
    Some [SystemMessage section_prompt;
          HumanMessage "Write an introduction for this report."] /\
    first_call (@write_conclusion plain_runtime Examples.interviewed) =
    Some [SystemMessage section_prompt;
          HumanMessage "Write a conclusion for this report."].
Proof.
  destruct (@writers_share_context plain_runtime Examples.interviewed
              (VStr "X") [VStr "M1 [1]"; VStr "M2 [1]"])
    as (report_prompt & section_prompt & _ & _ & _ & Hi & Hc).
  - vm_compute. reflexivity.
  - vm_compute. reflexivity.
  - exists section_prompt. split; [exact Hi | exact Hc].
Defined.

(** The update of the specification's example. *)
Lemma finalize_report_frame_witness :
  @finalize_report plain_runtime (texts "Intro" Examples.content "Concl") =
  Ok (<["final_report" := VStr Examples.returned_report]> ∅) /\
  dom (<["final_report" := VStr Examples.returned_report]>
         (∅ : gmap string value)) = {["final_report"]}.
Proof.
  assert (H : @finalize_report plain_runtime
                (texts "Intro" Examples.content "Concl") =
              Ok (<["final_report" := VStr Examples.returned_report]> ∅)).
  { rewrite (finalize_report_texts _ "Intro" Examples.content "Concl")
      by (vm_compute; reflexivity).
    do 3 f_equal. }
  split; [exact H|].
  exact (proj1 (@finalize_report_frame plain_runtime _ _ H)).
Defined.

(** ** Further properties of the marker step *)

Module MarkerFacts.
Import PyStr PyStrFacts PyChars.

Local Arguments String.append !_ _ / : simpl nomatch.



Lemma head_in_lstrip (chars s : string) : head_in chars (lstrip chars s) = false.
Proof.
  induction s as [|c s IH]; simpl; [reflexivity|].
  destruct (mem c chars) eqn:M; [exact IH | simpl; exact M].
Qed.

Lemma last_in_rstrip (chars s : string) : last_in chars (rstrip chars s) = false.
Proof.
  induction s as [|c s IH]; [reflexivity|].
  cbn [rstrip]. destruct (rstrip chars s) as [|d t] eqn:E.
  - destruct (mem c chars) eqn:M; [reflexivity | simpl; exact M].
  - exact IH.
Qed.

Lemma lstrip_id (chars s : string) :
  head_in chars s = false -> lstrip chars s = s.
Proof. destruct s as [|c s]; simpl; [reflexivity | now intros ->]. Qed.

Lemma rstrip_id (chars s : string) :
  last_in chars s = false -> rstrip chars s = s.
Proof.
  induction s as [|c s IH]; [reflexivity|].
  cbn [last_in rstrip]. destruct s as [|d t].
  - intros ->. reflexivity.
  - intros H. rewrite (IH H). reflexivity.
Qed.

Lemma head_in_rstrip (chars s : string) :
  head_in chars s = false -> head_in chars (rstrip chars s) = false.
Proof.
  destruct s as [|c s]; [reflexivity|]. cbn [rstrip head_in]. intros M.
  destruct (rstrip chars s); [rewrite M|]; simpl; try reflexivity; exact M.
Qed.

Lemma lstrip_all_in (chars p s : string) :
  all_in chars p = true -> lstrip chars (p +:+ s) = lstrip chars s.
Proof.
  induction p as [|c p IH]; simpl; [reflexivity|].
  intros H. apply andb_true_iff in H as [-> H]. now apply IH.
Qed.

Lemma strip_ends (chars s : string) :
  head_in chars (strip chars s) = false /\
  last_in chars (strip chars s) = false.
Proof.
  unfold strip. split.
  - apply head_in_rstrip, head_in_lstrip.
  - apply last_in_rstrip.
Qed.

Lemma startswith_head_in (p s : string) :
  p <> "" -> startswith p s = true -> head_in p s = true.
Proof.
  destruct p as [|a p]; [congruence|]. intros _.
  destruct s as [|b s]; simpl; [discriminate|].
  intros H. apply andb_true_iff in H as [H _].
  rewrite Ascii.eqb_sym in H. now rewrite H.
Qed.


(** X2.  The marker step is idempotent: what it returns no longer begins
    with the marker, so a second pass changes nothing. *)
Theorem strip_insights_idempotent (content : string) :
  strip_insights (strip_insights content) = strip_insights content.
Proof.
  unfold strip_insights at 1.
  destruct (startswith "## Insights" (strip_insights content)) eqn:F;
    [|reflexivity].
  exfalso. unfold strip_insights in F.
  destruct (startswith "## Insights" content) eqn:E; [|congruence].
  apply startswith_head_in in F; [|discriminate].
  destruct (strip_ends "## Insights" content) as [H _]. congruence.
Qed.

(** X3.  For a content made of the marker and a remainder, the marker step
    returns exactly the remainder if and only if the remainder neither
    begins nor ends with a character of [## Insights]. *)
Theorem strip_insights_exact_iff (rest : string) :
  strip_insights ("## Insights" +:+ rest) = rest <->
  head_in "## Insights" rest = false /\ last_in "## Insights" rest = false.
Proof.
  unfold strip_insights. rewrite startswith_app. split.
  - intros <-. apply strip_ends.
  - intros [Hh Hl]. unfold strip.
    rewrite lstrip_all_in by reflexivity.
    rewrite (lstrip_id _ _ Hh). now apply rstrip_id.
Qed.

End MarkerFacts.

(** ** Further properties of the reduce step *)

Section ReduceMore.
Context {RT : Runtime}.
Import PyStr PyStrFacts.

Lemma find_before_clean (sep s a b : string) :
  0 < String.length sep -> find sep s = Some (a, b) -> contains sep a = false.
Proof.
  intros Hsep F. destruct (contains sep a) eqn:C; [|reflexivity].
  apply contains_iff in C as (x & y & Ha).
  pose proof (find_Some _ _ _ _ F) as Hs.
  assert (Hs' : s = x +:+ sep +:+ (y +:+ sep +:+ b))
    by (rewrite Hs, Ha; now rewrite !app_assoc).
  pose proof (find_leftmost _ _ _ _ F _ _ Hs') as L.
  rewrite Ha, !length_app in L. lia.
Qed.

(** X4.  The cut of lines 152-158 loses nothing: when sources are split
    off, body, marker and sources put together are the content again, and
    neither part holds a marker; otherwise the body is the content. *)
Theorem split_sources_lossless (content : string) :
  match split_sources content with
  | (body, Some sources) =>
      content = body +:+ sources_marker +:+ sources /\
      contains sources_marker body = false /\
      contains sources_marker sources = false
  | (body, None) => body = content
  end.
Proof.
  rewrite split_sources_find.
  destruct (find sources_marker content) as [[body sources]|] eqn:F;
    [|reflexivity].
  destruct (contains sources_marker sources) eqn:C; [reflexivity|].
  split; [now apply find_Some|]. split; [|exact C].
  exact (find_before_clean _ _ _ _ sources_marker_nonempty F).
Qed.

(** X5.  The reduce step fails at the first thing it misses, in the order
    it reads: a state without [content] gives [KeyError] on [content]; a
    content that is not a string gives [AttributeError] on [startswith],
    whatever the other keys hold; with a string content, a missing
    [introduction] gives [KeyError] on it; with both as strings, a missing
    [conclusion] gives [KeyError] on it. *)
Theorem finalize_report_first_failure (state : gmap string value) :
  (state !! "content" = None ->
   finalize_report state = Raise (KeyError "content")) /\
  (forall v, state !! "content" = Some v -> (forall s, v <> VStr s) ->
   finalize_report state = Raise (AttributeError "startswith")) /\
  (forall content, state !! "content" = Some (VStr content) ->
   state !! "introduction" = None ->
   finalize_report state = Raise (KeyError "introduction")) /\
  (forall content introduction,
   state !! "content" = Some (VStr content) ->
   state !! "introduction" = Some (VStr introduction) ->
   state !! "conclusion" = None ->
   finalize_report state = Raise (KeyError "conclusion")).
Proof.
  unfold finalize_report, getitem. repeat split.
  - intros ->. reflexivity.
  - intros v -> Hv. destruct v; try reflexivity. now destruct (Hv s).
  - intros content -> ->. cbv beta iota delta [mbind result_bind str_method].
    now destruct (split_sources (strip_insights content)).
  - intros content introduction -> -> ->.
    cbv beta iota delta [mbind result_bind str_method].
    now destruct (split_sources (strip_insights content)).
Qed.

(** X6.  The reduce step reads [content], [introduction] and [conclusion]
    and nothing else: two states that agree on these three keys get the
    same result, report or exception. *)
Theorem finalize_report_reads_three_keys (state state' : gmap string value) :
  state !! "content" = state' !! "content" ->
  state !! "introduction" = state' !! "introduction" ->
  state !! "conclusion" = state' !! "conclusion" ->
  finalize_report state = finalize_report state'.
Proof.
  intros Hc Hi Hk. unfold finalize_report, getitem. now rewrite Hc, Hi, Hk.
Qed.

End ReduceMore.

(** A state without conclusion, and one whose content is [None]. *)
Lemma finalize_report_first_failure_witness :
  @finalize_report plain_runtime
    (<["content" := VStr "Body"]> (<["introduction" := VStr "Intro"]> ∅)) =
  Raise (KeyError "conclusion") /\
  @finalize_report plain_runtime (<["content" := VNone]> ∅) =
  Raise (AttributeError "startswith").
Proof.
  split.
  - apply (proj2 (proj2 (proj2 (@finalize_report_first_failure plain_runtime _)))
             "Body" "Intro"); vm_compute; reflexivity.
  - apply (proj1 (proj2 (@finalize_report_first_failure plain_runtime _)) VNone).
    + vm_compute. reflexivity.
    + discriminate.
Defined.

(** The example texts, with and without a topic beside them. *)
Lemma finalize_report_reads_three_keys_witness :
  @finalize_report plain_runtime
    (<["topic" := VStr "X"]> (texts "Intro" Examples.content "Concl")) =
  @finalize_report plain_runtime (texts "Intro" Examples.content "Concl").
Proof.
  apply (@finalize_report_reads_three_keys plain_runtime);
    vm_compute; reflexivity.
Defined.

(** ** Further properties of the routing and of the writers *)

Section WorkflowMore.
Context {RT : Runtime}.

(** X7.  The two routing functions take the same decision on every state,
    whatever [human_analyst_feedback] holds: [should_continue] returns
    [create_analysts] exactly when [initiate_all_interviews] does. *)
Theorem routers_agree (state : gmap string value) :
  should_continue state = "create_analysts" <->
  initiate_all_interviews state = Ok (Goto "create_analysts").
Proof.
  unfold should_continue, initiate_all_interviews.
  destruct (truthy (get state "human_analyst_feedback" (VStr ""))).
  - split; reflexivity.
  - split; [discriminate|].
    destruct (getitem state "topic") as [topic|e]; [|discriminate].
    destruct (getitem state "analysts") as [analysts|e]; [|discriminate].
    cbv beta iota delta [mbind result_bind].
    destruct (py_iter analysts) as [items|e]; discriminate.
Qed.

(** X8.  Without feedback the fan-out reads [topic] first and [analysts]
    next: a state without topic gives [KeyError] on [topic], also when the
    analysts are missing too; with a topic, missing analysts give
    [KeyError] on [analysts] and analysts that are [None] give
    [TypeError]; an empty panel gives an empty list of dispatches. *)
Theorem initiate_all_interviews_failures (state : gmap string value) :
  no_feedback state ->
  (state !! "topic" = None ->
   initiate_all_interviews state = Raise (KeyError "topic")) /\
  (forall topic, state !! "topic" = Some topic ->
   (state !! "analysts" = None ->
    initiate_all_interviews state = Raise (KeyError "analysts")) /\
   (state !! "analysts" = Some VNone ->
    initiate_all_interviews state = Raise TypeError) /\
   (state !! "analysts" = Some (VList []) ->
    initiate_all_interviews state = Ok (Fanout []))).
Proof.
  intros Hno. unfold initiate_all_interviews, getitem.
  rewrite (no_feedback_falsy _ Hno). split.
  - intros ->. reflexivity.
  - intros topic ->. repeat split; intros ->; reflexivity.
Qed.

Lemma run_bind {A B} (llm : list message -> result message)
    (p : prog A) (k : A -> prog B) :
  run llm (p ≫= k) = run llm p ≫= (fun a => run llm (k a)).
Proof.
  induction p as [[a|e]|messages k' IH]; try reflexivity.
  cbn. destruct (llm messages) as [reply|e]; [apply IH | reflexivity].
Qed.

(** X9.  A writer that misses one of its inputs calls no model: without
    [sections] each of the three finishes at once with [KeyError] on
    [sections], and with sections but without [topic] with [KeyError] on
    [topic]. *)
Theorem writers_missing_input (state : gmap string value) :
  (state !! "sections" = None ->
   write_report state = Done (Raise (KeyError "sections")) /\
   write_introduction state = Done (Raise (KeyError "sections")) /\
   write_conclusion state = Done (Raise (KeyError "sections"))) /\
  (forall sections, state !! "sections" = Some sections ->
   state !! "topic" = None ->
   write_report state = Done (Raise (KeyError "topic")) /\
   write_introduction state = Done (Raise (KeyError "topic")) /\
   write_conclusion state = Done (Raise (KeyError "topic"))).
Proof.
  unfold write_report, write_introduction, write_conclusion, getitem. split.
  - intros ->. repeat split.
  - intros sections -> ->. repeat split.
Qed.


Lemma write_report_Ok (llm : list message -> result message)
    (state update : gmap string value) :
  run llm (write_report state) = Ok update ->
  exists reply, update = <["content" := VMessage reply]> ∅.
Proof.
  unfold write_report. intros H.
  do 5 (rewrite run_bind in H; apply bind_Ok in H as (? & _ & H);
        cbv zeta in H).
  cbn in H. injection H as <-. eauto.
Qed.

(** X11.  The report never reaches the reduce step as a string: whatever
    the model and the state, when [write_report] returns an update, the
    reduce step raises [AttributeError] on [startswith] in every state
    that holds the value of that update under [content]. *)
Theorem write_report_then_finalize_fails
    (llm : list message -> result message)
    (state update state' : gmap string value) :
  run llm (write_report state) = Ok update ->
  state' !! "content" = update !! "content" ->
  finalize_report state' = Raise (AttributeError "startswith").
Proof.
  intros H Hc. apply write_report_Ok in H as [reply ->].
  rewrite lookup_insert_eq in Hc.
  unfold finalize_report, getitem. now rewrite Hc.
Qed.

End WorkflowMore.

(** ** Merging updates and the analyst generation *)

Section MergeMore.
Context {RT : Runtime}.

Lemma apply_update_single (state : gmap string value) (key : string) (v : value) :
  key <> "sections" ->
  apply_update state (<[key := v]> ∅) = Ok (<[key := v]> state).
Proof.
  intros Hkey. unfold apply_update.
  rewrite insert_empty, map_to_list_singleton. cbn [foldr fst snd].
  cbv beta iota delta [mbind result_bind]. unfold write_key, reducer.
  apply String.eqb_neq in Hkey. now rewrite Hkey.
Qed.

Lemma apply_update_empty (state : gmap string value) :
  apply_update state ∅ = Ok state.
Proof. unfold apply_update. now rewrite map_to_list_empty. Qed.

Lemma fan_in_cons_Ok (state state' update : gmap string value)
    (updates : list (gmap string value)) :
  apply_update state update = Ok state' ->
  fan_in state (update :: updates) = fan_in state' updates.
Proof.
  intros H. unfold fan_in. cbn [foldl].
  change (Ok state ≫= _) with (apply_update state update).
  now rewrite H.
Qed.

Lemma fan_in_singles (writes : list (string * value)) :
  forall state : gmap string value,
    Forall (fun kv => kv.1 <> "sections") writes ->
    fan_in state (map (fun kv => <[kv.1 := kv.2]> ∅) writes) =
    Ok (list_to_map (reverse writes) ∪ state).
Proof.
  induction writes as [|[key v] writes IH]; intros state Hkeys.
  - cbn. f_equal. now rewrite (left_id_L ∅ (∪)).
  - inversion Hkeys as [|? ? Hkey Hrest]; subst. cbn [map].
    rewrite (fan_in_cons_Ok state (<[key := v]> state))
      by (now apply apply_update_single).
    rewrite (IH _ Hrest). f_equal.
    rewrite reverse_cons, list_to_map_app. cbn [list_to_map foldr fst snd].
    rewrite <- (assoc_L (∪)). f_equal.
    rewrite insert_empty. apply insert_union_singleton_l.
Qed.

(** X12.  The updates of the three writers do not interfere: written in
    any order they give the same state, the old one with [content],
    [introduction] and [conclusion] replaced. *)
Theorem writers_updates_merge_in_any_order (state : gmap string value)
    (content introduction conclusion : value)
    (updates : list (gmap string value)) :
  updates ≡ₚ [<["content" := content]> ∅;
              <["introduction" := introduction]> ∅;
              <["conclusion" := conclusion]> ∅] ->
  fan_in state updates =
  Ok (<["content" := content]>
        (<["introduction" := introduction]>
           (<["conclusion" := conclusion]> state))).
Proof.
  intros Hperm.
  pose (writes := [("content", content); ("introduction", introduction);
                   ("conclusion", conclusion)] : list (string * value)).
  change [<["content" := content]> ∅; <["introduction" := introduction]> ∅;
          <["conclusion" := conclusion]> ∅]
    with (map (fun kv : string * value => <[kv.1 := kv.2]> (∅ : gmap string value))
              writes) in Hperm.
  apply Permutation_map_inv in Hperm as (writes' & -> & Hperm').
  assert (Hkeys : Forall (fun kv : string * value => kv.1 <> "sections") writes).
  { repeat constructor; discriminate. }
  rewrite fan_in_singles by (now rewrite <- Hperm').
  f_equal.
  assert (Hnodup : NoDup (reverse writes').*1).
  { rewrite fmap_reverse, reverse_Permutation, <- Hperm'.
    apply (bool_decide_unpack _). vm_compute. reflexivity. }
  rewrite (list_to_map_proper (reverse writes') writes Hnodup)
    by (now rewrite reverse_Permutation, Hperm').
  unfold writes. cbn [list_to_map foldr fst snd].
  rewrite <- !insert_union_l. now rewrite (left_id_L ∅ (∪)).
Qed.



Lemma create_analysts_Ok (structured_llm : list message -> result value)
    (state update : gmap string value) :
  create_analysts structured_llm state = Ok update ->
  exists analysts, update = <["analysts" := analysts]> ∅.
Proof.
  unfold create_analysts. intros H.
  do 4 (apply bind_Ok in H as (? & _ & H); cbv zeta in H).
  injection H as <-. eauto.
Qed.

(** X14.  Generating a panel and passing the review node never change the
    routing: the update of [create_analysts] and the empty update of
    [human_feedback] can always be written, they leave
    [human_analyst_feedback] as it was, and [should_continue] returns
    afterwards what it returned before.  Feedback that sent the workflow
    back to [create_analysts] does so again until the state itself is
    changed from outside. *)
Theorem regeneration_keeps_routing
    (structured_llm : list message -> result value)
    (state update : gmap string value) :
  create_analysts structured_llm state = Ok update ->
  exists state' state'',
    apply_update state update = Ok state' /\
    apply_update state' (human_feedback state') = Ok state'' /\
    state'' !! "analysts" = update !! "analysts" /\
    state'' !! "human_analyst_feedback" = state !! "human_analyst_feedback" /\
    should_continue state'' = should_continue state.
Proof.
  intros H. apply create_analysts_Ok in H as [analysts ->].
  exists (<["analysts" := analysts]> state), (<["analysts" := analysts]> state).
  rewrite apply_update_single by discriminate.
  unfold human_feedback. rewrite apply_update_empty.
  assert (Hfb : (<["analysts" := analysts]> state) !! "human_analyst_feedback"
                = state !! "human_analyst_feedback")
    by (now apply lookup_insert_ne).
  repeat split.
  - now rewrite !lookup_insert_eq.
  - exact Hfb.
  - unfold should_continue, get. now rewrite Hfb.
Qed.

End MergeMore.

(** ** The further properties at concrete states *)

(** An accepted panel without topic, and an empty panel. *)
Lemma initiate_all_interviews_failures_witness :
  @initiate_all_interviews plain_runtime (<["analysts" := VList []]> ∅) =
  Raise (KeyError "topic") /\
  @initiate_all_interviews plain_runtime
    (<["topic" := VStr "X"]> (<["analysts" := VList []]> ∅)) =
  Ok (Fanout []).
Proof.
  split.
  - apply (@initiate_all_interviews_failures plain_runtime).
    + left. vm_compute. reflexivity.
    + vm_compute. reflexivity.
  - refine (proj2 (proj2 (proj2 (@initiate_all_interviews_failures plain_runtime
                                   _ _) (VStr "X") _)) _).
    + left. vm_compute. reflexivity.
    + vm_compute. reflexivity.
    + vm_compute. reflexivity.
Defined.

(** The writers on the empty state. *)
Lemma writers_missing_input_witness :
  @write_report plain_runtime ∅ = Done (Raise (KeyError "sections")) /\
  @write_introduction plain_runtime ∅ = Done (Raise (KeyError "sections")) /\
  @write_conclusion plain_runtime ∅ = Done (Raise (KeyError "sections")).
Proof.
  apply (proj1 (@writers_missing_input plain_runtime ∅)).
  vm_compute. reflexivity.
Defined.


(** The example state after the writers. *)
Lemma write_report_then_finalize_fails_witness :
  run Examples.llm (@write_report plain_runtime Examples.interviewed) =
  Ok (<["content" := VMessage Examples.reply]> ∅) /\
  @finalize_report plain_runtime Examples.drafted =
  Raise (AttributeError "startswith").
Proof.
  assert (H : run Examples.llm (@write_report plain_runtime Examples.interviewed) =
              Ok (<["content" := VMessage Examples.reply]> ∅))
    by (vm_compute; reflexivity).
  split; [exact H|].
  apply (@write_report_then_finalize_fails plain_runtime _ _ _ _ H).
  vm_compute. reflexivity.
Defined.

(** The conclusion written first, the report last. *)
Lemma writers_updates_merge_in_any_order_witness :
  @fan_in plain_runtime Examples.interviewed
    [<["conclusion" := VStr "Concl"]> ∅;
     <["introduction" := VStr "Intro"]> ∅;
     <["content" := VMessage Examples.reply]> ∅] =
  Ok Examples.drafted.
Proof.
  apply (@writers_updates_merge_in_any_order plain_runtime).
  etransitivity; [apply Permutation_rev|]. reflexivity.
Defined.


(** A request with feedback: after the panel is generated the router asks
    for another one. *)
Lemma regeneration_keeps_routing_witness :
  exists state'' : gmap string value,
    state'' !! "analysts" = Some (VList Examples.panel) /\
    should_continue state'' = "create_analysts".
Proof.
  destruct (@regeneration_keeps_routing plain_runtime Examples.structured
              (Examples.requested (Some (VStr "Add a founder")))
              (<["analysts" := VList Examples.panel]> ∅))
    as (state' & state'' & _ & _ & Ha & _ & Hr).
  - vm_compute. reflexivity.
  - exists state''. split.
    + rewrite Ha. apply lookup_insert_eq.
    + rewrite Hr. vm_compute. reflexivity.
Defined.
